(** * Docker image tasks: [prefect.tasks.docker.images]

    A shallow embedding of the five task classes of
    [src/prefect/tasks/docker/images.py] ([ListImages], [PullImage],
    [PushImage], [RemoveImage], [TagImage]) and the properties of their
    [run] methods: how call-time arguments and constructor-time attributes
    are merged, when validation rejects an invocation, what reaches the
    Docker client and what comes back from it.

    Python values are a small tagged union, keyword arguments and instance
    dictionaries are finite maps keyed by name, and a method is a
    computation in a state-and-exception monad whose state holds the
    instance dictionary of [self], the world behind the Docker client and
    the trace of interactions with that client. *)

From stdpp Require Import base strings gmap list.

Local Open Scope string_scope.
Local Open Scope list_scope.
Local Open Scope nat_scope.
Local Open Scope stdpp_scope.
Set Warnings "-register-all".

(** ** Python values *)

Inductive value : Type :=
| VNone
| VBool (b : bool)
| VInt (n : Z)
| VStr (s : string)
| VList (items : list value)
| VDict (entries : list (string * value)).

#[global] Instance value_inhabited : Inhabited value := populate VNone.

(** [x is None] *)
Definition is_None (v : value) : bool :=
  match v with VNone => true | _ => false end.

(** The truth value of an object, as used by [not x] and [if x]. *)
Definition truthy (v : value) : bool :=
  match v with
  | VNone => false
  | VBool b => b
  | VInt n => negb (n =? 0)%Z
  | VStr s => match s with EmptyString => false | String _ _ => true end
  | VList items => match items with [] => false | _ :: _ => true end
  | VDict entries => match entries with [] => false | _ :: _ => true end
  end.

(** Keyword arguments ([**kwargs]) and instance dictionaries
    ([self.__dict__]) are both maps from names to values. *)
Abbreviation dict := (gmap string value).

(** [kwargs.get(name)]: the value bound to [name], [None] when absent. *)
Definition dict_get (d : dict) (name : string) : value :=
  default VNone (d !! name).

(** ** Exceptions *)

Record exn : Type := Exn { exn_class : string; exn_message : string }.

Definition ValueError (msg : string) : exn := Exn "ValueError" msg.
Definition TypeError (msg : string) : exn := Exn "TypeError" msg.
Definition AttributeError (name : string) : exn := Exn "AttributeError" name.

(** ** The collaborators

    [docker.APIClient] is an external library: constructing a client and
    calling one of its methods may return or raise, and may change the
    world behind it (the daemon, the network). *)

Class Docker : Type := {
  daemon : Type;
  handle : Type;
  (** [docker.APIClient(base_url=...)] *)
  APIClient : value → daemon → (exn + handle) * daemon;
  (** [client.method(k1=v1, ..., kn=vn)] *)
  client_call : handle → string → list (string * value) → daemon → (exn + value) * daemon
}.

(** [prefect.Task.__init__(self, **kwargs)] belongs to the framework: it
    receives the keyword arguments the subclass did not consume and the
    instance dictionary as the subclass left it. *)
Class Framework : Type := {
  Task__init__ : dict → dict → exn + dict
}.

(** What a method did with the Docker library, in order. *)
Inductive event : Type :=
| NewClient (base_url : value)
| Invoke (method : string) (kwargs : list (string * value)).

(** ** Methods as computations *)

Section Machine.
Context `{Docker}.

Record state : Type := State {
  self : dict;
  world : daemon;
  trace : list event
}.

Definition M (A : Type) : Type := state → (exn + A) * state.

#[global] Instance M_ret : MRet M := λ A (a : A) s, (inr a, s).

#[global] Instance M_bind : MBind M := λ A B (k : A → M B) (m : M A) s,
  match m s with
  | (inl e, s') => (inl e, s')
  | (inr a, s') => k a s'
  end.

Definition raise {A : Type} (e : exn) : M A := λ s, (inl e, s).

(** [getattr(self, name)] *)
Definition getattr (name : string) : M value := λ s,
  match self s !! name with
  | Some v => (inr v, s)
  | None => (inl (AttributeError name), s)
  end.

(** [self.name = v] *)
Definition setattr (name : string) (v : value) : M unit := λ s,
  (inr (), State (<[name := v]> (self s)) (world s) (trace s)).

(** [docker.APIClient(base_url=base_url)] *)
Definition new_client (base_url : value) : M handle := λ s,
  let '(r, w) := APIClient base_url (world s) in
  (r, State (self s) w (trace s ++ [NewClient base_url])).

(** [c.method(k1=v1, ..., kn=vn)] *)
Definition invoke (c : handle) (method : string) (kwargs : list (string * value)) : M value := λ s,
  let '(r, w) := client_call c method kwargs (world s) in
  (r, State (self s) w (trace s ++ [Invoke method kwargs])).

(** Calling [def f(self, p1=d1, ..., pn=dn)] as [f(self, **kwargs)]:
    a keyword that names no parameter is a [TypeError]; otherwise every
    parameter is bound, to its keyword or else to its default. *)
Definition bind_signature (params : list (string * value)) (kwargs : dict) : M dict :=
  if bool_decide (dom kwargs ⊆ list_to_set params.*1)
  then mret (kwargs ∪ list_to_map params)
  else raise (TypeError "run() got an unexpected keyword argument").
End Machine.

Arguments state {_}.
Arguments M {_} _.

(** ** The decorator and the task classes *)

Definition default_url : string := "unix:///var/run/docker.sock".

Section Tasks.
Context `{Docker} `{Framework}.

(** Modelled from the spec: [prefect.utilities.tasks.defaults_from_attrs]
    is imported by the module but is not among the sources. The spec
    gives its rule: for each named field, if the call-time value is the
    unset sentinel ([None], which is also what an absent keyword reads
    as), use the attribute of [self]; otherwise use the call-time value.
    The fields are treated one after the other, each on its own. *)
Fixpoint fill_defaults (attr_args : list string) (kwargs : dict) : M dict :=
  match attr_args with
  | [] => mret kwargs
  | attr :: rest =>
      if is_None (dict_get kwargs attr)
      then v ← getattr attr; fill_defaults rest (<[attr := v]> kwargs)
      else fill_defaults rest kwargs
  end.

Definition defaults_from_attrs (attr_args : list string)
    (run_method : dict → M value) (kwargs : dict) : M value :=
  kwargs' ← fill_defaults attr_args kwargs; run_method kwargs'.

(** The value an [__init__] parameter takes: its keyword, else its default. *)
Definition param (args : dict) (name : string) (dflt : value) : value :=
  default dflt (args !! name).

(** The keywords [__init__] does not name, collected by its [**kwargs]. *)
Definition extra_kwargs (names : list string) (args : dict) : dict :=
  foldr delete args names.

(** [super().__init__] applied to the collected keywords *)
Definition super__init__ (kwargs : dict) : M unit := λ s,
  match Task__init__ kwargs (self s) with
  | inl e => (inl e, s)
  | inr d => (inr (), State d (world s) (trace s))
  end.

(** *** ListImages *)

Definition ListImages__init__ (args : dict) : M unit :=
  let repository_name := param args "repository_name" VNone in
  let all_layers := param args "all_layers" (VBool false) in
  let docker_server_url := param args "docker_server_url" (VStr default_url) in
  setattr "repository_name" repository_name;;
  setattr "all_layers" all_layers;;
  setattr "docker_server_url" docker_server_url;;
  super__init__ (extra_kwargs ["repository_name"; "all_layers"; "docker_server_url"] args).

Definition ListImages_run_method (kwargs : dict) : M value :=
  locals ← bind_signature
    [("repository_name", VNone); ("all_layers", VBool false);
     ("docker_server_url", VStr default_url)] kwargs;
  let repository_name := locals !!! "repository_name" in
  let all_layers := locals !!! "all_layers" in
  let docker_server_url := locals !!! "docker_server_url" in
  client ← new_client docker_server_url;
  invoke client "images" [("name", repository_name); ("all", all_layers)].

Definition ListImages_run : dict → M value :=
  defaults_from_attrs ["repository_name"; "all_layers"; "docker_server_url"]
    ListImages_run_method.

(** *** PullImage *)

Definition PullImage__init__ (args : dict) : M unit :=
  let repository := param args "repository" VNone in
  let tag := param args "tag" VNone in
  let docker_server_url := param args "docker_server_url" (VStr default_url) in
  setattr "repository" repository;;
  setattr "tag" tag;;
  setattr "docker_server_url" docker_server_url;;
  super__init__ (extra_kwargs ["repository"; "tag"; "docker_server_url"] args).

Definition PullImage_run_method (kwargs : dict) : M value :=
  locals ← bind_signature
    [("repository", VNone); ("tag", VNone);
     ("docker_server_url", VStr default_url)] kwargs;
  let repository := locals !!! "repository" in
  let tag := locals !!! "tag" in
  let docker_server_url := locals !!! "docker_server_url" in
  if negb (truthy repository)
  then raise (ValueError "A repository to pull the image from must be specified.")
  else
    client ← new_client docker_server_url;
    invoke client "pull" [("repository", repository); ("tag", tag)].

Definition PullImage_run : dict → M value :=
  defaults_from_attrs ["repository"; "tag"; "docker_server_url"]
    PullImage_run_method.

(** *** PushImage *)

Definition PushImage__init__ (args : dict) : M unit :=
  let repository := param args "repository" VNone in
  let tag := param args "tag" VNone in
  let docker_server_url := param args "docker_server_url" (VStr default_url) in
  setattr "repository" repository;;
  setattr "tag" tag;;
  setattr "docker_server_url" docker_server_url;;
  super__init__ (extra_kwargs ["repository"; "tag"; "docker_server_url"] args).

Definition PushImage_run_method (kwargs : dict) : M value :=
  locals ← bind_signature
    [("repository", VNone); ("tag", VNone);
     ("docker_server_url", VStr default_url)] kwargs;
  let repository := locals !!! "repository" in
  let tag := locals !!! "tag" in
  let docker_server_url := locals !!! "docker_server_url" in
  if negb (truthy repository)
  then raise (ValueError "A repository to push the image to must be specified.")
  else
    client ← new_client docker_server_url;
    invoke client "push" [("repository", repository); ("tag", tag)].

Definition PushImage_run : dict → M value :=
  defaults_from_attrs ["repository"; "tag"; "docker_server_url"]
    PushImage_run_method.

(** *** RemoveImage *)

Definition RemoveImage__init__ (args : dict) : M unit :=
  let image := param args "image" VNone in
  let force := param args "force" (VBool false) in
  let docker_server_url := param args "docker_server_url" (VStr default_url) in
  setattr "image" image;;
  setattr "force" force;;
  setattr "docker_server_url" docker_server_url;;
  super__init__ (extra_kwargs ["image"; "force"; "docker_server_url"] args).

(** The body ends after the call to [client.remove]: the method falls
    off its end and so returns [None]. *)
Definition RemoveImage_run_method (kwargs : dict) : M value :=
  locals ← bind_signature
    [("image", VNone); ("force", VBool false);
     ("docker_server_url", VStr default_url)] kwargs;
  let image := locals !!! "image" in
  let force := locals !!! "force" in
  let docker_server_url := locals !!! "docker_server_url" in
  if negb (truthy image)
  then raise (ValueError "The name of an image to remove must be provided.")
  else
    client ← new_client docker_server_url;
    invoke client "remove" [("image", image); ("force", force)];;
    mret VNone.

Definition RemoveImage_run : dict → M value :=
  defaults_from_attrs ["image"; "force"; "docker_server_url"]
    RemoveImage_run_method.

(** *** TagImage *)

Definition TagImage__init__ (args : dict) : M unit :=
  let image := param args "image" VNone in
  let repository := param args "repository" VNone in
  let tag := param args "tag" VNone in
  let force := param args "force" (VBool false) in
  let docker_server_url := param args "docker_server_url" (VStr default_url) in
  setattr "image" image;;
  setattr "repository" repository;;
  setattr "tag" tag;;
  setattr "force" force;;
  setattr "docker_server_url" docker_server_url;;
  super__init__
    (extra_kwargs ["image"; "repository"; "tag"; "force"; "docker_server_url"] args).

Definition TagImage_run_method (kwargs : dict) : M value :=
  locals ← bind_signature
    [("image", VNone); ("repository", VNone); ("tag", VNone);
     ("force", VBool false); ("docker_server_url", VStr default_url)] kwargs;
  let image := locals !!! "image" in
  let repository := locals !!! "repository" in
  let tag := locals !!! "tag" in
  let force := locals !!! "force" in
  let docker_server_url := locals !!! "docker_server_url" in
  if negb (truthy image) || negb (truthy repository)
  then raise (ValueError "Both image and repository must be provided.")
  else
    client ← new_client docker_server_url;
    invoke client "tag"
      [("image", image); ("repository", repository); ("tag", tag); ("force", force)].

Definition TagImage_run : dict → M value :=
  defaults_from_attrs ["image"; "repository"; "tag"; "force"; "docker_server_url"]
    TagImage_run_method.
End Tasks.

(** ** The five classes, uniformly *)

Inductive task : Type := ListImages | PullImage | PushImage | RemoveImage | TagImage.

Section Dispatch.
Context `{Docker} `{Framework}.

Definition __init__ (t : task) : dict → M unit :=
  match t with
  | ListImages => ListImages__init__
  | PullImage => PullImage__init__
  | PushImage => PushImage__init__
  | RemoveImage => RemoveImage__init__
  | TagImage => TagImage__init__
  end.

Definition run (t : task) : dict → M value :=
  match t with
  | ListImages => ListImages_run
  | PullImage => PullImage_run
  | PushImage => PushImage_run
  | RemoveImage => RemoveImage_run
  | TagImage => TagImage_run
  end.

(** Instantiating a class: [__init__] runs on a fresh, empty instance,
    which is [self] from then on. *)
Definition instantiate (t : task) (args : dict) : M unit := λ s,
  __init__ t args (State ∅ (world s) (trace s)).
End Dispatch.

(** The fields of each class: the names given to its decorator, which are
    also the attributes its [__init__] sets and the parameters of [run]. *)
Definition fields (t : task) : list string :=
  match t with
  | ListImages => ["repository_name"; "all_layers"; "docker_server_url"]
  | PullImage | PushImage => ["repository"; "tag"; "docker_server_url"]
  | RemoveImage => ["image"; "force"; "docker_server_url"]
  | TagImage => ["image"; "repository"; "tag"; "force"; "docker_server_url"]
  end.

(** An invocation [t.run(k1=v1, ...)] that names only parameters of [run].
    Arguments are taken by keyword, the way the decorator hands them on;
    any other keyword is refused by the signature with a [TypeError]. *)
Definition well_called (t : task) (kwargs : dict) : Prop :=
  dom kwargs ⊆ list_to_set (fields t).

(** An instance that carries every attribute its class declares. *)
Definition has_attrs (t : task) (d : dict) : Prop :=
  Forall (λ f, is_Some (d !! f)) (fields t).

#[global] Instance well_called_dec t kwargs : Decision (well_called t kwargs).
Proof. unfold well_called. apply _. Defined.

#[global] Instance has_attrs_dec t d : Decision (has_attrs t d).
Proof. unfold has_attrs. apply _. Defined.

(** [Task.__init__] leaves the attributes named [names] as it finds them. *)
Definition preserves `{Framework} (names : list string) : Prop :=
  ∀ kwargs d d' a, a ∈ names → Task__init__ kwargs d = inr d' → d' !! a = d !! a.

(** The effective value of field [f]: the call-time argument unless it is
    [None], and then the attribute. *)
Definition resolved (attrs kwargs : dict) (f : string) : value :=
  if is_None (dict_get kwargs f) then attrs !!! f else dict_get kwargs f.

(** The check each [run] makes before it touches the Docker library. *)
Definition passes_validation (t : task) (eff : string → value) : bool :=
  match t with
  | ListImages => true
  | PullImage | PushImage => truthy (eff "repository")
  | RemoveImage => truthy (eff "image")
  | TagImage => truthy (eff "image") && truthy (eff "repository")
  end.

(** The exception raised when the check fails, with the message of the
    class ([ListImages] makes no check and has none). *)
Definition validation_error (t : task) : exn :=
  ValueError
    match t with
    | ListImages => ""
    | PullImage => "A repository to pull the image from must be specified."
    | PushImage => "A repository to push the image to must be specified."
    | RemoveImage => "The name of an image to remove must be provided."
    | TagImage => "Both image and repository must be provided."
    end.

(** The client method each class delegates to, and which field it passes
    under which keyword. *)
Definition client_method (t : task) : string :=
  match t with
  | ListImages => "images"
  | PullImage => "pull"
  | PushImage => "push"
  | RemoveImage => "remove"
  | TagImage => "tag"
  end.

Definition forwarded (t : task) : list (string * string) :=
  match t with
  | ListImages => [("name", "repository_name"); ("all", "all_layers")]
  | PullImage | PushImage => [("repository", "repository"); ("tag", "tag")]
  | RemoveImage => [("image", "image"); ("force", "force")]
  | TagImage =>
      [("image", "image"); ("repository", "repository"); ("tag", "tag"); ("force", "force")]
  end.

Definition call_kwargs (t : task) (eff : string → value) : list (string * value) :=
  (λ kf, (kf.1, eff kf.2)) <$> forwarded t.

(** What the caller of [run] gets when the client method returned [r]. *)
Definition returned (t : task) (r : value) : value :=
  match t with RemoveImage => VNone | _ => r end.

(** The events a trace gained, and the delegated calls among them. *)
Definition is_call (e : event) : bool :=
  match e with Invoke _ _ => true | NewClient _ => false end.

Definition calls (evs : list event) : nat := length (filter (λ e, is_call e = true) evs).

(** The fields whose resolved value [run] insists on. *)
Definition required (t : task) : list string :=
  match t with
  | ListImages => []
  | PullImage | PushImage => ["repository"]
  | RemoveImage => ["image"]
  | TagImage => ["image"; "repository"]
  end.

(** The default of each [__init__] parameter; the classes agree on them. *)
Definition constructor_default (f : string) : value :=
  if String.eqb f "docker_server_url" then VStr default_url
  else if String.eqb f "all_layers" || String.eqb f "force" then VBool false
  else VNone.

(** ** Traces

    The vocabulary for what an invocation did with the Docker library. *)

(** At most one client is built and, after it, at most one method called. *)
Definition single_shot (evs : list event) : Prop :=
  evs = [] ∨ (∃ u, evs = [NewClient u]) ∨ (∃ u m a, evs = [NewClient u; Invoke m a]).

(** The events [s'] has beyond those of [s]. *)
Definition new_events `{Docker} (s s' : state) : list event :=
  drop (length (trace s)) (trace s').

Definition base_urls (evs : list event) : list value :=
  omap (λ e, match e with NewClient u => Some u | Invoke _ _ => None end) evs.

Definition method_calls (evs : list event) : list (string * list (string * value)) :=
  omap (λ e, match e with Invoke m a => Some (m, a) | NewClient _ => None end) evs.

Fixpoint keyword (k : string) (kwargs : list (string * value)) : option value :=
  match kwargs with
  | [] => None
  | (k', v) :: rest => if String.eqb k' k then Some v else keyword k rest
  end.

(** The value the Docker library was handed for field [f] of class [t]:
    the [base_url] of the client for [docker_server_url], and for any other
    field the keyword of the method call it travels under. *)
Definition passed (t : task) (f : string) (evs : list event) : option value :=
  if String.eqb f "docker_server_url" then head (base_urls evs)
  else
    kf ← find (λ kf, String.eqb kf.2 f) (forwarded t);
    call ← head (method_calls evs);
    keyword kf.1 call.2.

(** Every [run] has one shape once its fields are resolved: check, build
    a client, delegate once, hand the result on. *)
Section Outcome.
Context `{Docker}.

Definition outcome (t : task) (eff : string → value) : M value :=
  if passes_validation t eff then
    client ← new_client (eff "docker_server_url");
    r ← invoke client (client_method t) (call_kwargs t eff);
    mret (returned t r)
  else raise (validation_error t).
End Outcome.

(** The instance dictionary as an [__init__] has filled it when it calls
    [super().__init__]: one assignment per field, in the order of the
    source, each of the keyword given or else of the parameter's default. *)
Definition stored (t : task) (args : dict) : dict :=
  foldl (λ d f, <[f := param args f (constructor_default f)]> d) ∅ (fields t).

(** ** A small world for examples

    A daemon that counts the requests it served, reachable at any URL
    but ["tcp://down:2375"], and a framework whose [Task.__init__] accepts
    a [name] only. *)

Definition example_APIClient (url : value) (served : nat) : (exn + value) * nat :=
  match url with
  | VStr "tcp://down:2375" => (inl (Exn "DockerException" "connection refused"), served)
  | _ => (inr url, served)
  end.

Definition two_images : value :=
  VList [VDict [("Id", VStr "sha256:1f1a")]; VDict [("Id", VStr "sha256:9c2e")]].

Definition example_call (c : value) (method : string) (kwargs : list (string * value))
    (served : nat) : (exn + value) * nat :=
  if String.eqb method "images" then (inr two_images, S served)
  else if String.eqb method "pull" then (inr (VStr "Status: Image is up to date"), S served)
  else if String.eqb method "push" then (inr (VStr "The push refers to repository"), S served)
  else if String.eqb method "tag" then (inr (VBool true), S served)
  else if String.eqb method "remove" then (inr (VList [VDict [("Deleted", VStr "sha256:1f1a")]]), S served)
  else (inl (AttributeError method), served).

Definition example_docker : Docker :=
  {| daemon := nat; handle := value;
     APIClient := example_APIClient; client_call := example_call |}.

Definition example_framework : Framework :=
  {| Task__init__ := λ kwargs d,
       if bool_decide (dom kwargs ⊆ {["name"]})
       then inr (<["name" := dict_get kwargs "name"]> d)
       else inl (TypeError "__init__() got an unexpected keyword argument") |}.

(** An instance with the given attributes, in a world that has served no
    request yet. *)
Definition example_state (attrs : dict) : @state example_docker :=
  @State example_docker attrs 0%nat [].

(** The attributes of a [PullImage] built with [repository="ubuntu"]. *)
Definition ubuntu : dict :=
  {[ "repository" := VStr "ubuntu"; "tag" := VNone; "docker_server_url" := VStr default_url ]}.

(** Two [TagImage]s, without and with a repository, and a [RemoveImage]. *)
Definition untagged : dict :=
  {[ "image" := VStr "ubuntu:22.04"; "repository" := VNone; "tag" := VNone;
     "force" := VBool false; "docker_server_url" := VStr default_url ]}.

Definition tagged : dict :=
  {[ "image" := VStr "ubuntu:22.04"; "repository" := VStr "registry.local/ubuntu";
     "tag" := VNone; "force" := VBool false; "docker_server_url" := VStr default_url ]}.

Definition stale : dict :=
  {[ "image" := VStr "ubuntu:18.04"; "force" := VBool true;
     "docker_server_url" := VStr default_url ]}.

(** The state in which no instance has been built yet, and the one left
    by building an instance of [t] from [args] in it. *)
Definition blank : @state example_docker := example_state ∅.

Definition built (t : task) (args : dict) : @state example_docker :=
  (@instantiate example_docker example_framework t args blank).2.

(** ** Stepping through a computation *)

Section Steps.
Context `{Docker}.

Lemma bind_inr {A B : Type} (m : M A) (k : A → M B) s a s' :
  m s = (inr a, s') → (m ≫= k) s = k a s'.
Proof. intros Hm. unfold mbind, M_bind. by rewrite Hm. Qed.

Lemma bind_inl {A B : Type} (m : M A) (k : A → M B) s e s' :
  m s = (inl e, s') → (m ≫= k) s = (inl e, s').
Proof. intros Hm. unfold mbind, M_bind. by rewrite Hm. Qed.

Lemma getattr_Some name v s : self s !! name = Some v → getattr name s = (inr v, s).
Proof. intros Hv. unfold getattr. by rewrite Hv. Qed.

Lemma dict_get_insert_eq (d : dict) k v : dict_get (<[k := v]> d) k = v.
Proof. unfold dict_get. by rewrite lookup_insert_eq. Qed.

Lemma dict_get_insert_ne (d : dict) k k' v :
  k ≠ k' → dict_get (<[k := v]> d) k' = dict_get d k'.
Proof. intros Hne. unfold dict_get. by rewrite lookup_insert_ne. Qed.

Lemma dict_get_not_None (d : dict) k :
  is_None (dict_get d k) = false → d !! k = Some (dict_get d k).
Proof. unfold dict_get. by destruct (d !! k). Qed.

(** The decorator's loop: it never raises on an instance that has the
    attributes, leaves the state alone, and binds every named field to
    its resolved value while keeping the other keywords. *)
Lemma fill_defaults_resolved attr_args : ∀ kwargs s,
  Forall (λ f, is_Some (self s !! f)) attr_args →
  ∃ kwargs',
    fill_defaults attr_args kwargs s = (inr kwargs', s)
    ∧ (∀ f, f ∈ attr_args → kwargs' !! f = Some (resolved (self s) kwargs f))
    ∧ (∀ f, f ∉ attr_args → kwargs' !! f = kwargs !! f).
Proof.
  induction attr_args as [|attr rest IH]; intros kwargs s Hattrs.
  - exists kwargs. split; [done|]. split; [|done].
    intros f Hf. by apply elem_of_nil in Hf.
  - apply Forall_cons in Hattrs as [[v Hv] Hrest]. simpl.
    destruct (is_None (dict_get kwargs attr)) eqn:Hunset.
    + rewrite (bind_inr _ _ _ _ _ (getattr_Some _ _ _ Hv)).
      destruct (IH (<[attr := v]> kwargs) s Hrest) as (kwargs' & Hrun & Hin & Hout).
      exists kwargs'. split; [done|]. split.
      * intros f Hf. destruct (decide (f ∈ rest)) as [Hr|Hr].
        -- rewrite (Hin f Hr). f_equal. unfold resolved.
           destruct (decide (attr = f)) as [<-|Hne].
           ++ rewrite Hunset, dict_get_insert_eq, (lookup_total_correct _ _ _ Hv).
              by destruct (is_None v).
           ++ by rewrite dict_get_insert_ne.
        -- apply elem_of_cons in Hf as [->|Hf]; [|done].
           rewrite (Hout attr Hr), lookup_insert_eq. unfold resolved.
           by rewrite Hunset, (lookup_total_correct _ _ _ Hv).
      * intros f Hf. apply not_elem_of_cons in Hf as [Hne Hr].
        by rewrite (Hout f Hr), lookup_insert_ne.
    + destruct (IH kwargs s Hrest) as (kwargs' & Hrun & Hin & Hout).
      exists kwargs'. split; [done|]. split.
      * intros f Hf. destruct (decide (f ∈ rest)) as [Hr|Hr]; [by apply Hin|].
        apply elem_of_cons in Hf as [->|Hf]; [|done].
        rewrite (Hout attr Hr). unfold resolved. rewrite Hunset.
        by apply dict_get_not_None.
      * intros f Hf. apply not_elem_of_cons in Hf as [Hne Hr]. by apply Hout.
Qed.

(** Entering a decorated [run]: the keywords are completed from the
    attributes, the signature accepts them, and each parameter holds the
    resolved value of its field. *)
Lemma enter_run t params (body : dict → M value) kwargs s :
  params.*1 = fields t →
  well_called t kwargs →
  has_attrs t (self s) →
  ∃ locals,
    defaults_from_attrs (fields t)
      (λ kw, locals ← bind_signature params kw; body locals) kwargs s
    = body locals s
    ∧ ∀ f, f ∈ fields t → locals !!! f = resolved (self s) kwargs f.
Proof.
  intros Hparams Hcall Hattrs.
  destruct (fill_defaults_resolved (fields t) kwargs s Hattrs)
    as (kwargs' & Hrun & Hin & Hout).
  exists (kwargs' ∪ list_to_map params). split.
  - unfold defaults_from_attrs. rewrite (bind_inr _ _ _ _ _ Hrun).
    apply bind_inr. unfold bind_signature. rewrite Hparams.
    rewrite bool_decide_eq_true_2; [done|].
    intros k Hk. apply elem_of_dom in Hk.
    destruct (decide (k ∈ fields t)) as [Hf|Hf]; [by apply elem_of_list_to_set|].
    rewrite (Hout k Hf) in Hk. apply Hcall. by apply elem_of_dom.
  - intros f Hf. apply lookup_total_correct, lookup_union_Some_l. by apply Hin.
Qed.
End Steps.

(** ** The shape of [run] *)

Section Shape.
Context `{Docker}.

Local Ltac enter t Hcall Hattrs :=
  lazymatch goal with
  | |- defaults_from_attrs _ (λ kw, mbind ?k (bind_signature ?p kw)) ?kwargs ?s = _ =>
      let locals := fresh "locals" in
      let Hrun := fresh "Hrun" in
      let Hloc := fresh "Hloc" in
      destruct (enter_run t p k kwargs s eq_refl Hcall Hattrs) as (locals & Hrun & Hloc);
      etrans; [exact Hrun|]; cbv beta zeta;
      rewrite !Hloc by (apply list_elem_of_In; simpl; tauto); clear Hrun Hloc locals
  end.

Local Ltac finish :=
  unfold outcome, passes_validation, validation_error, call_kwargs, returned; simpl;
  repeat match goal with
         | |- context [truthy ?v] => destruct (truthy v); simpl
         end;
  try done;
  unfold mbind, M_bind, mret, M_ret;
  match goal with
  | |- context [new_client ?u ?s] => destruct (new_client u s) as [[?|?] ?]; [done|]
  end;
  match goal with
  | |- context [invoke ?c ?m ?a ?s] => by destruct (invoke c m a s) as [[?|?] ?]
  end.

Lemma run_outcome t kwargs s :
  well_called t kwargs →
  has_attrs t (self s) →
  run t kwargs s = outcome t (resolved (self s) kwargs) s.
Proof.
  intros Hcall Hattrs. destruct t.
  - unfold run, ListImages_run, ListImages_run_method. enter ListImages Hcall Hattrs. finish.
  - unfold run, PullImage_run, PullImage_run_method. enter PullImage Hcall Hattrs. finish.
  - unfold run, PushImage_run, PushImage_run_method. enter PushImage Hcall Hattrs. finish.
  - unfold run, RemoveImage_run, RemoveImage_run_method. enter RemoveImage Hcall Hattrs. finish.
  - unfold run, TagImage_run, TagImage_run_method. enter TagImage Hcall Hattrs. finish.
Qed.
End Shape.

(** ** What a constructor leaves behind *)

Section Construction.
Context `{Docker} `{Framework}.

Lemma instantiate_attrs t args s s1 :
  preserves (fields t) →
  instantiate t args s = (inr (), s1) →
  world s1 = world s ∧ trace s1 = trace s
  ∧ ∀ f, f ∈ fields t → self s1 !! f = Some (param args f (constructor_default f)).
Proof.
  intros Hpres Hinit.
  assert (∃ d, self s1 = d ∧ world s1 = world s ∧ trace s1 = trace s
               ∧ ∀ f, f ∈ fields t → d !! f = Some (param args f (constructor_default f)))
    as (d & <- & ? & ? & ?); [|done].
  destruct t;
    unfold instantiate, __init__, ListImages__init__, PullImage__init__,
      PushImage__init__, RemoveImage__init__, TagImage__init__,
      mbind, M_bind, setattr, super__init__ in Hinit;
    simpl in Hinit;
    match type of Hinit with
    | context [Task__init__ ?kw ?d] => destruct (Task__init__ kw d) as [e|d'] eqn:Hsuper
    end;
    simplify_eq; eexists; (split; [done|]); (split; [done|]); (split; [done|]);
    intros f Hf; simpl; rewrite (Hpres _ _ _ f Hf Hsuper);
    simpl in Hf; apply list_elem_of_In in Hf; simpl in Hf;
    repeat (destruct Hf as [<-|Hf]; [by simplify_map_eq|]); done.
Qed.

Lemma instantiate_has_attrs t args s s1 :
  preserves (fields t) → instantiate t args s = (inr (), s1) → has_attrs t (self s1).
Proof.
  intros Hpres Hinit. apply Forall_forall. intros f Hf.
  destruct (instantiate_attrs t args s s1 Hpres Hinit) as (_ & _ & Hattrs).
  rewrite (Hattrs f Hf). by eexists.
Qed.
End Construction.

(** ** What [run] can touch *)

Section Frame.
Context `{Docker}.

Lemma fill_defaults_frame attr_args : ∀ kwargs s, (fill_defaults attr_args kwargs s).2 = s.
Proof.
  induction attr_args as [|attr rest IH]; intros kwargs s; simpl; [done|].
  destruct (is_None (dict_get kwargs attr)); [|by apply IH].
  unfold mbind, M_bind, getattr. destruct (self s !! attr); [by apply IH|done].
Qed.

Lemma fill_defaults_self attr_args : ∀ kwargs s s',
  self s = self s' →
  (fill_defaults attr_args kwargs s).1 = (fill_defaults attr_args kwargs s').1.
Proof.
  induction attr_args as [|attr rest IH]; intros kwargs s s' Hself; simpl; [done|].
  destruct (is_None (dict_get kwargs attr)); [|by apply IH].
  unfold mbind, M_bind, getattr. rewrite Hself.
  destruct (self s' !! attr); [by apply IH|done].
Qed.

Lemma single_shot_calls evs : single_shot evs → calls evs ≤ 1.
Proof.
  intros [->|[[u ->]|(u & m & a & ->)]]; unfold calls; simpl; lia.
Qed.

Local Ltac walk :=
  unfold bind_signature, mbind, M_bind, mret, M_ret, raise; simpl;
  repeat first
    [ case_bool_decide; simpl
    | match goal with
      | |- context [truthy ?v] => destruct (truthy v); simpl
      | |- context [new_client ?u ?s] =>
          unfold new_client; destruct (APIClient u (world s)) as [[?|?] ?]; simpl
      | |- context [invoke ?c ?m ?a ?s] =>
          unfold invoke; simpl; destruct (client_call c m a) as [[?|?] ?]; simpl
      end ];
  (split; [done|]); eexists;
  (split;
    [ first [ by rewrite app_nil_r | by rewrite <- app_assoc | done ]
    | unfold single_shot; eauto 10 ]).

(** Whatever the arguments and whatever happens, [run] leaves the
    instance dictionary as it was and adds a single-shot interaction to
    the trace. *)
Lemma run_frame t kwargs s :
  self (run t kwargs s).2 = self s
  ∧ ∃ evs, trace (run t kwargs s).2 = trace s ++ evs ∧ single_shot evs.
Proof.
  assert (∀ attr_args (run_method : dict → M value),
    (∀ kw, self (run_method kw s).2 = self s
           ∧ ∃ evs, trace (run_method kw s).2 = trace s ++ evs ∧ single_shot evs) →
    self (defaults_from_attrs attr_args run_method kwargs s).2 = self s
    ∧ ∃ evs, trace (defaults_from_attrs attr_args run_method kwargs s).2 = trace s ++ evs
             ∧ single_shot evs) as Hdecorated.
  { intros attr_args run_method Hmethod. unfold defaults_from_attrs, mbind, M_bind.
    pose proof (fill_defaults_frame attr_args kwargs s) as Hframe.
    destruct (fill_defaults attr_args kwargs s) as [[e|kw] s0]; simpl in Hframe; subst s0.
    - split; [done|]. exists []. split; [by rewrite app_nil_r|by left].
    - apply Hmethod. }
  destruct t; apply Hdecorated; intros kw.
  - unfold ListImages_run_method. walk.
  - unfold PullImage_run_method. walk.
  - unfold PushImage_run_method. walk.
  - unfold RemoveImage_run_method. walk.
  - unfold TagImage_run_method. walk.
Qed.
End Frame.

(** ** Every way a well-formed invocation can end *)

Section Cases.
Context `{Docker}.

Lemma run_rejected t kwargs s :
  well_called t kwargs → has_attrs t (self s) →
  passes_validation t (resolved (self s) kwargs) = false →
  run t kwargs s = (inl (validation_error t), s).
Proof.
  intros Hcall Hattrs Hcheck. rewrite run_outcome by done.
  unfold outcome. by rewrite Hcheck.
Qed.

Lemma run_unreachable t kwargs s e w :
  well_called t kwargs → has_attrs t (self s) →
  let eff := resolved (self s) kwargs in
  passes_validation t eff = true →
  APIClient (eff "docker_server_url") (world s) = (inl e, w) →
  run t kwargs s
  = (inl e, State (self s) w (trace s ++ [NewClient (eff "docker_server_url")])).
Proof.
  intros Hcall Hattrs eff Hcheck Hnew. rewrite run_outcome by done.
  unfold outcome. fold eff. rewrite Hcheck.
  apply bind_inl. unfold new_client. by rewrite Hnew.
Qed.

Lemma run_delegated t kwargs s c w r w' :
  well_called t kwargs → has_attrs t (self s) →
  let eff := resolved (self s) kwargs in
  passes_validation t eff = true →
  APIClient (eff "docker_server_url") (world s) = (inr c, w) →
  client_call c (client_method t) (call_kwargs t eff) w = (r, w') →
  run t kwargs s
  = (match r with inl e => inl e | inr v => inr (returned t v) end,
     State (self s) w'
       (trace s ++ [NewClient (eff "docker_server_url");
                    Invoke (client_method t) (call_kwargs t eff)])).
Proof.
  intros Hcall Hattrs eff Hcheck Hnew Hdone. rewrite run_outcome by done.
  unfold outcome. fold eff. rewrite Hcheck.
  erewrite bind_inr; [|unfold new_client; by rewrite Hnew].
  unfold mbind, M_bind, invoke, mret, M_ret. simpl. rewrite Hdone.
  rewrite <- app_assoc. by destruct r.
Qed.

Lemma required_rejects t f eff :
  f ∈ required t → truthy (eff f) = false → passes_validation t eff = false.
Proof.
  intros Hf Hfalsy. destruct t; simpl in *;
    apply list_elem_of_In in Hf; simpl in Hf;
    repeat (destruct Hf as [<-|Hf]; [by rewrite Hfalsy, ?andb_false_r|]); done.
Qed.
End Cases.

(** ** Reading a trace *)

Section Events.
Context `{Docker}.

Lemma run_events t kwargs s :
  well_called t kwargs → has_attrs t (self s) →
  let eff := resolved (self s) kwargs in
  new_events s (run t kwargs s).2
  = if passes_validation t eff then
      match APIClient (eff "docker_server_url") (world s) with
      | (inl _, _) => [NewClient (eff "docker_server_url")]
      | (inr _, _) =>
          [NewClient (eff "docker_server_url");
           Invoke (client_method t) (call_kwargs t eff)]
      end
    else [].
Proof.
  intros Hcall Hattrs eff. unfold new_events.
  destruct (passes_validation t eff) eqn:Hcheck.
  - destruct (APIClient (eff "docker_server_url") (world s)) as [[e|c] w] eqn:Hnew.
    + rewrite (run_unreachable t kwargs s e w) by done. simpl.
      by rewrite drop_app_length.
    + destruct (client_call c (client_method t) (call_kwargs t eff) w) as [r w'] eqn:Hdone.
      rewrite (run_delegated t kwargs s c w r w') by done. simpl.
      by rewrite drop_app_length.
  - rewrite run_rejected by done. simpl. apply drop_all.
Qed.

Lemma url_is_field t : "docker_server_url" ∈ fields t.
Proof. destruct t; apply list_elem_of_In; simpl; tauto. Qed.

Lemma passed_delegated t f u eff :
  f ∈ fields t →
  passed t f [NewClient u; Invoke (client_method t) (call_kwargs t eff)]
  = Some (if String.eqb f "docker_server_url" then u else eff f).
Proof.
  intros Hf. destruct t; simpl in Hf; apply list_elem_of_In in Hf; simpl in Hf;
    repeat (destruct Hf as [<-|Hf]; [reflexivity|]); done.
Qed.

Lemma passed_early t f u v :
  passed t f [] = None
  ∧ (passed t f [NewClient u] = Some v → f = "docker_server_url" ∧ v = u).
Proof.
  unfold passed. destruct (String.eqb_spec f "docker_server_url") as [->|Hne]; simpl.
  - split; [done|]. by intros [= <-].
  - split; by destruct (find _ _).
Qed.

Lemma resolved_other attrs kwargs f g v :
  g ≠ f → resolved attrs (<[g := v]> kwargs) f = resolved attrs kwargs f.
Proof. intros Hne. unfold resolved. by rewrite dict_get_insert_ne. Qed.

Lemma well_called_insert t kwargs g v :
  well_called t kwargs → g ∈ fields t → well_called t (<[g := v]> kwargs).
Proof.
  unfold well_called. intros Hcall Hg. rewrite dom_insert.
  apply union_least; [|done]. apply singleton_subseteq_l. by apply elem_of_list_to_set.
Qed.

(** Whatever [run] hands to the Docker library for a field is that
    field's resolved value. *)
Lemma passed_resolved t f kwargs s v :
  well_called t kwargs → has_attrs t (self s) → f ∈ fields t →
  passed t f (new_events s (run t kwargs s).2) = Some v →
  v = resolved (self s) kwargs f.
Proof.
  intros Hcall Hattrs Hf. rewrite run_events by done.
  destruct (passes_validation t _).
  - destruct (APIClient _ _) as [[e|c] w].
    + intros Hp. by apply passed_early in Hp as [-> ->].
    + rewrite passed_delegated by done. intros [= <-].
      by destruct (String.eqb_spec f "docker_server_url") as [->|Hne].
  - intros Hp. by rewrite (proj1 (passed_early t f VNone VNone)) in Hp.
Qed.
End Events.

(** ** The properties *)

Section Properties.
Context `{Docker} `{Framework}.

(** C1. For each of the five classes and each of its fields, the value
    [run] passes on to the Docker client is the call-time argument when
    that argument is not [None], and the attribute of the instance
    otherwise. Nothing but the resolved value is ever passed; when
    validation passes and the client is built, it is passed; and giving
    another field [g] a call-time value leaves what is passed for [f]
    as it was. *)
Theorem resolution_per_field t f kwargs s :
  well_called t kwargs →
  has_attrs t (self s) →
  f ∈ fields t →
  let eff := λ g, if is_None (dict_get kwargs g) then self s !!! g else dict_get kwargs g in
  let sent := λ kw, passed t f (new_events s (run t kw s).2) in
  (∀ v, sent kwargs = Some v → v = eff f)
  ∧ (passes_validation t eff = true →
     ∀ c w, APIClient (eff "docker_server_url") (world s) = (inr c, w) →
     sent kwargs = Some (eff f))
  ∧ (∀ g v' v, g ∈ fields t → g ≠ f → sent (<[g := v']> kwargs) = Some v → v = eff f).
Proof.
  intros Hcall Hattrs Hf eff sent.
  change eff with (resolved (self s) kwargs). unfold sent. split; [|split].
  - intros v. by apply passed_resolved.
  - intros Hcheck c w Hnew. rewrite run_events by done.
    rewrite Hcheck, Hnew, passed_delegated by done. f_equal.
    by destruct (String.eqb_spec f "docker_server_url") as [->|Hne].
  - intros g v' v Hg Hne Hsent.
    apply passed_resolved in Hsent; [|by apply well_called_insert|done..].
    by rewrite resolved_other in Hsent.
Qed.

(** C2. A [PullImage] or [PushImage] whose [repository], or a
    [RemoveImage] whose [image], is [None] (or not given) both when the
    instance is built and when [run] is called raises the [ValueError]
    of its class, and the state is what it was: no client was built and
    no method of it called. The same holds of either required field of
    a [TagImage]. *)
Theorem missing_required_field t f args kwargs s s1 :
  preserves (fields t) →
  f ∈ required t →
  is_None (dict_get args f) = true →
  is_None (dict_get kwargs f) = true →
  well_called t kwargs →
  instantiate t args s = (inr (), s1) →
  run t kwargs s1 = (inl (validation_error t), s1)
  ∧ exn_class (validation_error t) = "ValueError"
  ∧ new_events s1 (run t kwargs s1).2 = [].
Proof.
  intros Hpres Hf Hinit Hcallv Hcall Hnew.
  destruct (instantiate_attrs t args s s1 Hpres Hnew) as (_ & _ & Hattrs).
  pose proof (instantiate_has_attrs t args s s1 Hpres Hnew) as Hhas.
  assert (f ∈ fields t) as Hfield.
  { destruct t; simpl in *; apply list_elem_of_In in Hf; apply list_elem_of_In;
      simpl in *; tauto. }
  assert (resolved (self s1) kwargs f = VNone) as Hres.
  { unfold resolved. rewrite Hcallv.
    rewrite (lookup_total_correct _ _ _ (Hattrs f Hfield)).
    assert (constructor_default f = VNone) as ->.
    { destruct t; simpl in Hf; apply list_elem_of_In in Hf; simpl in Hf;
        repeat (destruct Hf as [<-|Hf]; [reflexivity|]); done. }
    unfold param. fold (dict_get args f). by destruct (dict_get args f). }
  assert (run t kwargs s1 = (inl (validation_error t), s1)) as Hrun.
  { apply run_rejected; [done..|]. apply (required_rejects t f); [done|].
    by rewrite Hres. }
  split; [done|]. split; [done|]. rewrite Hrun. apply drop_all.
Qed.

(** C3. A [TagImage] whose [image] resolves to a value but whose
    [repository] resolves to [None], or the other way round, raises
    [ValueError]; the state is what it was, so no client was built
    before the error and no method called. *)
Theorem tag_needs_both kwargs s :
  well_called TagImage kwargs →
  has_attrs TagImage (self s) →
  let eff := resolved (self s) kwargs in
  (is_None (eff "image") = false ∧ eff "repository" = VNone)
  ∨ (is_None (eff "repository") = false ∧ eff "image" = VNone) →
  run TagImage kwargs s
  = (inl (ValueError "Both image and repository must be provided."), s)
  ∧ new_events s (run TagImage kwargs s).2 = [].
Proof.
  intros Hcall Hattrs eff Hunset.
  assert (run TagImage kwargs s = (inl (validation_error TagImage), s)) as Hrun.
  { apply run_rejected; [done..|]. fold eff. simpl.
    destruct Hunset as [[_ ->]|[_ ->]]; [apply andb_false_r|done]. }
  split; [done|]. rewrite Hrun. apply drop_all.
Qed.

(** C4. When [docker_server_url] is given neither to the constructor
    nor to [run], every client that [run] builds is built against
    [unix:///var/run/docker.sock], and one is built whenever validation
    passes. *)
Theorem default_endpoint t args kwargs s s1 :
  preserves (fields t) →
  args !! "docker_server_url" = None →
  kwargs !! "docker_server_url" = None →
  well_called t kwargs →
  instantiate t args s = (inr (), s1) →
  let evs := new_events s1 (run t kwargs s1).2 in
  (∀ u, NewClient u ∈ evs → u = VStr "unix:///var/run/docker.sock")
  ∧ (passes_validation t (resolved (self s1) kwargs) = true →
     NewClient (VStr "unix:///var/run/docker.sock") ∈ evs).
Proof.
  intros Hpres Hinit Hcallv Hcall Hnew evs.
  destruct (instantiate_attrs t args s s1 Hpres Hnew) as (_ & _ & Hattrs).
  pose proof (instantiate_has_attrs t args s s1 Hpres Hnew) as Hhas.
  assert (resolved (self s1) kwargs "docker_server_url" = VStr default_url) as Hurl.
  { unfold resolved, dict_get. rewrite Hcallv. simpl.
    rewrite (lookup_total_correct _ _ _ (Hattrs _ (url_is_field t))).
    unfold param. by rewrite Hinit. }
  unfold evs. rewrite run_events by done. rewrite Hurl.
  destruct (passes_validation t _).
  - split.
    + intros u Hu. destruct (APIClient _ _) as [[e|c] w].
      * by apply list_elem_of_singleton in Hu as [= ->].
      * apply elem_of_cons in Hu as [[= ->]|Hu]; [done|].
        by apply list_elem_of_singleton in Hu.
    + intros _. destruct (APIClient _ _) as [[e|c] w]; apply list_elem_of_here.
  - split; [|done]. intros u Hu. by apply elem_of_nil in Hu.
Qed.

(** C5. A [ListImages] given no [repository_name] and no [all_layers],
    at construction or at the call, asks the client for
    [images(name=None, all=False)], and what the client answers, a list
    of any content or an error, is what [run] answers. *)
Theorem list_all_images args kwargs s s1 c w r w' :
  preserves (fields ListImages) →
  args !! "repository_name" = None →
  args !! "all_layers" = None →
  kwargs !! "repository_name" = None →
  kwargs !! "all_layers" = None →
  well_called ListImages kwargs →
  instantiate ListImages args s = (inr (), s1) →
  let url := resolved (self s1) kwargs "docker_server_url" in
  let call := [("name", VNone); ("all", VBool false)] in
  APIClient url (world s1) = (inr c, w) →
  client_call c "images" call w = (r, w') →
  run ListImages kwargs s1
  = (r, State (self s1) w' (trace s1 ++ [NewClient url; Invoke "images" call])).
Proof.
  intros Hpres Hname Hall Hcname Hcall_layers Hcall Hnew url call Hclient Hdone.
  destruct (instantiate_attrs _ args s s1 Hpres Hnew) as (_ & _ & Hattrs).
  pose proof (instantiate_has_attrs _ args s s1 Hpres Hnew) as Hhas.
  assert (call_kwargs ListImages (resolved (self s1) kwargs) = call) as Hkw.
  { unfold call_kwargs, call. simpl. unfold resolved, dict_get.
    rewrite Hcname, Hcall_layers. simpl.
    rewrite (lookup_total_correct _ _ (param args "repository_name" VNone)),
      (lookup_total_correct _ _ (param args "all_layers" (VBool false)));
      [|apply Hattrs; apply list_elem_of_In; simpl; tauto..].
    unfold param. by rewrite Hname, Hall. }
  rewrite (run_delegated ListImages kwargs s1 c w r w'); [|done..|by rewrite Hkw].
  rewrite Hkw. by destruct r.
Qed.

(** C6. When the validation of [TagImage.run] passes, what [run]
    returns is what the client's [tag] method returned, as it is: if
    [tag] returns [r] then [run] returns [r], and [run] returns nothing
    that [tag] did not return. *)
Theorem tag_result_verbatim kwargs s :
  well_called TagImage kwargs →
  has_attrs TagImage (self s) →
  let eff := resolved (self s) kwargs in
  let call :=
    [("image", eff "image"); ("repository", eff "repository");
     ("tag", eff "tag"); ("force", eff "force")] in
  passes_validation TagImage eff = true →
  (∀ c w r w',
     APIClient (eff "docker_server_url") (world s) = (inr c, w) →
     client_call c "tag" call w = (inr r, w') →
     (run TagImage kwargs s).1 = inr r)
  ∧ (∀ v, (run TagImage kwargs s).1 = inr v →
       ∃ c w w',
         APIClient (eff "docker_server_url") (world s) = (inr c, w)
         ∧ client_call c "tag" call w = (inr v, w')).
Proof.
  intros Hcall Hattrs eff call Hcheck. split.
  - intros c w r w' Hnew Hdone.
    by rewrite (run_delegated TagImage kwargs s c w (inr r) w').
  - intros v Hrun.
    destruct (APIClient (eff "docker_server_url") (world s)) as [[e|c] w] eqn:Hnew.
    + by rewrite (run_unreachable TagImage kwargs s e w) in Hrun.
    + destruct (client_call c "tag" call w) as [r w'] eqn:Hdone.
      rewrite (run_delegated TagImage kwargs s c w r w') in Hrun by done.
      destruct r as [e|r]; simplify_eq/=. by exists c, w, w'.
Qed.


(** C8. In each of the five classes an exception raised by
    [docker.APIClient] or by the delegated method is the exception
    [run] raises, the same one; after it the trace shows the one
    attempt and nothing more. Whatever the arguments, an invocation
    builds at most one client and calls at most one method. *)
Theorem client_errors_propagate t kwargs s :
  let evs := new_events s (run t kwargs s).2 in
  let eff := resolved (self s) kwargs in
  let url := eff "docker_server_url" in
  let call := Invoke (client_method t) (call_kwargs t eff) in
  calls evs ≤ 1
  ∧ length (base_urls evs) ≤ 1
  ∧ (well_called t kwargs → has_attrs t (self s) → passes_validation t eff = true →
     (∀ e w, APIClient url (world s) = (inl e, w) →
        (run t kwargs s).1 = inl e ∧ evs = [NewClient url])
     ∧ (∀ c w e w',
          APIClient url (world s) = (inr c, w) →
          client_call c (client_method t) (call_kwargs t eff) w = (inl e, w') →
          (run t kwargs s).1 = inl e ∧ evs = [NewClient url; call])).
Proof.
  intros evs eff url call.
  destruct (run_frame t kwargs s) as (_ & evs' & Htrace & Hshot).
  assert (evs = evs') as ->.
  { unfold evs, new_events. rewrite Htrace. apply drop_app_length. }
  split; [by apply single_shot_calls|]. split.
  { destruct Hshot as [->|[[u ->]|(u & m & a & ->)]]; simpl; lia. }
  intros Hcall Hattrs Hcheck. split.
  - intros e w Hnew. pose proof (run_unreachable t kwargs s e w Hcall Hattrs Hcheck Hnew) as Hrun.
    rewrite Hrun in Htrace. simpl in Htrace. apply app_inv_head in Htrace as <-.
    by rewrite Hrun.
  - intros c w e w' Hnew Hdone.
    pose proof (run_delegated t kwargs s c w (inl e) w' Hcall Hattrs Hcheck Hnew Hdone) as Hrun.
    rewrite Hrun in Htrace. simpl in Htrace. apply app_inv_head in Htrace as <-.
    by rewrite Hrun.
Qed.

(** C9. [run] writes to no attribute: after any invocation of any of
    the five classes, returning or raising, the instance dictionary is
    what it was before. So after a first invocation a second one, with
    other arguments, finds the constructor's values, and the decorator
    completes its keywords exactly as it would have on the untouched
    instance. *)
Theorem run_leaves_attributes t kwargs1 kwargs2 s :
  let s1 := (run t kwargs1 s).2 in
  let s2 := (run t kwargs2 s1).2 in
  self s1 = self s
  ∧ self s2 = self s
  ∧ (fill_defaults (fields t) kwargs2 s1).1 = (fill_defaults (fields t) kwargs2 s).1
  ∧ ∀ f, resolved (self s1) kwargs2 f = resolved (self s) kwargs2 f.
Proof.
  intros s1 s2.
  assert (self s1 = self s) as Hfirst by apply run_frame.
  split; [done|]. split; [|split].
  - unfold s2. by rewrite (proj1 (run_frame t kwargs2 s1)).
  - by apply fill_defaults_self.
  - intros f. by rewrite Hfirst.
Qed.

(** C10. An empty string given at call time for a required field
    ([repository] of [PullImage] and [PushImage], [image] of
    [RemoveImage], [image] or [repository] of [TagImage]) is not [None],
    so it is the resolved value whatever the attribute holds, a
    non-empty string included; being falsy it fails validation, and
    [run] raises the [ValueError] of its class with the state as it
    was. *)
Theorem empty_string_overrides t f kwargs s :
  well_called t kwargs →
  has_attrs t (self s) →
  f ∈ required t →
  kwargs !! f = Some (VStr "") →
  resolved (self s) kwargs f = VStr ""
  ∧ run t kwargs s = (inl (validation_error t), s)
  ∧ exn_class (validation_error t) = "ValueError".
Proof.
  intros Hcall Hattrs Hf Hempty.
  assert (resolved (self s) kwargs f = VStr "") as Hres.
  { unfold resolved, dict_get. by rewrite Hempty. }
  split; [done|]. split; [|done].
  apply run_rejected; [done..|]. apply (required_rejects t f); [done|].
  by rewrite Hres.
Qed.
End Properties.

(** ** The properties at work in the example world *)

Lemma example_preserves t : @preserves example_framework (fields t).
Proof.
  intros kwargs d d' a Ha. simpl. case_bool_decide; [|done]. intros [= <-].
  apply lookup_insert_ne. intros <-.
  destruct t; apply list_elem_of_In in Ha; simpl in Ha; intuition discriminate.
Defined.

(** A [PullImage] built for [ubuntu] and run with [tag="22.04"] asks the
    client to pull that tag. *)
Lemma resolution_per_field_example :
  let kwargs : dict := {[ "tag" := VStr "22.04" ]} in
  let s := example_state ubuntu in
  well_called PullImage kwargs ∧ has_attrs PullImage (self s) ∧ "tag" ∈ fields PullImage
  ∧ passed PullImage "tag" (new_events s (@run example_docker PullImage kwargs s).2)
    = Some (VStr "22.04").
Proof.
  intros kwargs s.
  assert (well_called PullImage kwargs) as Hcall by compute_done.
  assert (has_attrs PullImage (self s)) as Hattrs by compute_done.
  assert ("tag" ∈ fields PullImage) as Hf by compute_done.
  split; [exact Hcall|]. split; [exact Hattrs|]. split; [exact Hf|].
  pose proof (@resolution_per_field example_docker PullImage "tag" kwargs s Hcall Hattrs Hf)
    as (_ & Hsent & _).
  exact (Hsent eq_refl _ _ eq_refl).
Defined.

(** A [PullImage] built without a repository and run without one raises,
    and the state is untouched. *)
Lemma missing_required_field_example :
  let args : dict := {[ "tag" := VStr "22.04"; "name" := VStr "pull-ubuntu" ]} in
  let s1 := built PullImage args in
  is_None (dict_get args "repository") = true
  ∧ is_None (dict_get (∅ : dict) "repository") = true
  ∧ well_called PullImage ∅
  ∧ @instantiate example_docker example_framework PullImage args blank = (inr (), s1)
  ∧ @run example_docker PullImage ∅ s1
    = (inl (ValueError "A repository to pull the image from must be specified."), s1).
Proof.
  intros args s1.
  assert (well_called PullImage ∅) as Hcall by compute_done.
  assert ("repository" ∈ required PullImage) as Hf by compute_done.
  assert (@instantiate example_docker example_framework PullImage args blank = (inr (), s1))
    as Hnew by reflexivity.
  split; [reflexivity|]. split; [reflexivity|]. split; [exact Hcall|]. split; [exact Hnew|].
  exact (proj1 (@missing_required_field example_docker example_framework
                  PullImage "repository" args ∅ blank s1
                  (example_preserves PullImage) Hf eq_refl eq_refl Hcall Hnew)).
Defined.

(** A [TagImage] with an image but no repository raises whatever tag it
    is asked to set. *)
Lemma tag_needs_both_example :
  let kwargs : dict := {[ "tag" := VStr "stable" ]} in
  let s := example_state untagged in
  well_called TagImage kwargs ∧ has_attrs TagImage (self s)
  ∧ is_None (resolved (self s) kwargs "image") = false
  ∧ resolved (self s) kwargs "repository" = VNone
  ∧ @run example_docker TagImage kwargs s
    = (inl (ValueError "Both image and repository must be provided."), s).
Proof.
  intros kwargs s.
  assert (well_called TagImage kwargs) as Hcall by compute_done.
  assert (has_attrs TagImage (self s)) as Hattrs by compute_done.
  split; [exact Hcall|]. split; [exact Hattrs|]. split; [reflexivity|]. split; [reflexivity|].
  exact (proj1 (@tag_needs_both example_docker kwargs s Hcall Hattrs
                  (or_introl (conj eq_refl eq_refl)))).
Defined.

(** A [ListImages] built and run without a URL talks to the local socket. *)
Lemma default_endpoint_example :
  let args : dict := {[ "name" := VStr "list-images" ]} in
  let s1 := built ListImages args in
  args !! "docker_server_url" = None
  ∧ (∅ : dict) !! "docker_server_url" = None
  ∧ well_called ListImages ∅
  ∧ @instantiate example_docker example_framework ListImages args blank = (inr (), s1)
  ∧ NewClient (VStr "unix:///var/run/docker.sock")
    ∈ new_events s1 (@run example_docker ListImages ∅ s1).2.
Proof.
  intros args s1.
  assert (well_called ListImages ∅) as Hcall by compute_done.
  assert (@instantiate example_docker example_framework ListImages args blank = (inr (), s1))
    as Hnew by reflexivity.
  split; [reflexivity|]. split; [reflexivity|]. split; [exact Hcall|]. split; [exact Hnew|].
  exact (proj2 (@default_endpoint example_docker example_framework
                  ListImages args ∅ blank s1
                  (example_preserves ListImages) eq_refl eq_refl Hcall Hnew) eq_refl).
Defined.

(** A [ListImages] without filters returns the two records the daemon
    lists. *)
Lemma list_all_images_example :
  let s1 := built ListImages ∅ in
  let url := VStr default_url in
  well_called ListImages ∅
  ∧ @instantiate example_docker example_framework ListImages ∅ blank = (inr (), s1)
  ∧ example_APIClient url 0 = (inr url, 0)
  ∧ example_call url "images" [("name", VNone); ("all", VBool false)] 0 = (inr two_images, 1)
  ∧ @run example_docker ListImages ∅ s1
    = (inr two_images,
       @State example_docker (self s1) 1
         [NewClient url; Invoke "images" [("name", VNone); ("all", VBool false)]]).
Proof.
  intros s1 url.
  assert (well_called ListImages ∅) as Hcall by compute_done.
  assert (@instantiate example_docker example_framework ListImages ∅ blank = (inr (), s1))
    as Hnew by reflexivity.
  split; [exact Hcall|]. split; [exact Hnew|]. split; [reflexivity|]. split; [reflexivity|].
  exact (@list_all_images example_docker example_framework
           ∅ ∅ blank s1 url 0 (inr two_images) 1
           (example_preserves ListImages) eq_refl eq_refl eq_refl eq_refl Hcall Hnew
           eq_refl eq_refl).
Defined.

(** A [TagImage] with both fields returns the daemon's [True]. *)
Lemma tag_result_verbatim_example :
  let kwargs : dict := {[ "tag" := VStr "stable" ]} in
  let s := example_state tagged in
  well_called TagImage kwargs ∧ has_attrs TagImage (self s)
  ∧ passes_validation TagImage (resolved (self s) kwargs) = true
  ∧ (@run example_docker TagImage kwargs s).1 = inr (VBool true).
Proof.
  intros kwargs s.
  assert (well_called TagImage kwargs) as Hcall by compute_done.
  assert (has_attrs TagImage (self s)) as Hattrs by compute_done.
  split; [exact Hcall|]. split; [exact Hattrs|]. split; [reflexivity|].
  exact (proj1 (@tag_result_verbatim example_docker kwargs s Hcall Hattrs eq_refl)
           (VStr default_url) 0 (VBool true) 1 eq_refl eq_refl).
Defined.


(** A [PullImage] pointed at a daemon that is down raises the client's
    own exception, after one attempt to reach it. *)
Lemma client_errors_propagate_example :
  let kwargs : dict := {[ "docker_server_url" := VStr "tcp://down:2375" ]} in
  let s := example_state ubuntu in
  well_called PullImage kwargs ∧ has_attrs PullImage (self s)
  ∧ passes_validation PullImage (resolved (self s) kwargs) = true
  ∧ (@run example_docker PullImage kwargs s).1
    = inl (Exn "DockerException" "connection refused")
  ∧ new_events s (@run example_docker PullImage kwargs s).2
    = [NewClient (VStr "tcp://down:2375")].
Proof.
  intros kwargs s.
  assert (well_called PullImage kwargs) as Hcall by compute_done.
  assert (has_attrs PullImage (self s)) as Hattrs by compute_done.
  split; [exact Hcall|]. split; [exact Hattrs|]. split; [reflexivity|].
  exact (proj1 (proj2 (proj2 (@client_errors_propagate example_docker PullImage kwargs s))
                  Hcall Hattrs eq_refl)
           (Exn "DockerException" "connection refused") 0 eq_refl).
Defined.

(** A [PullImage] built for [ubuntu] but run with [repository=""] raises. *)
Lemma empty_string_overrides_example :
  let kwargs : dict := {[ "repository" := VStr "" ]} in
  let s := example_state ubuntu in
  well_called PullImage kwargs ∧ has_attrs PullImage (self s)
  ∧ "repository" ∈ required PullImage
  ∧ self s !! "repository" = Some (VStr "ubuntu")
  ∧ @run example_docker PullImage kwargs s
    = (inl (ValueError "A repository to pull the image from must be specified."), s).
Proof.
  intros kwargs s.
  assert (well_called PullImage kwargs) as Hcall by compute_done.
  assert (has_attrs PullImage (self s)) as Hattrs by compute_done.
  assert ("repository" ∈ required PullImage) as Hf by compute_done.
  split; [exact Hcall|]. split; [exact Hattrs|]. split; [exact Hf|]. split; [reflexivity|].
  exact (proj1 (proj2 (@empty_string_overrides example_docker PullImage "repository"
                         kwargs s Hcall Hattrs Hf eq_refl))).
Defined.

(** ** The model on further inputs *)

(** An explicit [None] at call time reads the attribute, like an absent
    keyword. *)
Example explicit_None_reads_attribute :
  new_events (example_state ubuntu)
    (@run example_docker PullImage {[ "repository" := VNone ]} (example_state ubuntu)).2
  = [NewClient (VStr default_url);
     Invoke "pull" [("repository", VStr "ubuntu"); ("tag", VNone)]].
Proof. reflexivity. Qed.

(** A keyword that [run] does not declare is refused before anything
    else happens. *)
Example unexpected_keyword :
  @run example_docker PullImage {[ "registry" := VStr "quay.io" ]} (example_state ubuntu)
  = (inl (TypeError "run() got an unexpected keyword argument"), example_state ubuntu).
Proof. reflexivity. Qed.

(** The constructor stores its defaults next to what the framework adds. *)
Example built_RemoveImage :
  self (built RemoveImage {[ "image" := VStr "ubuntu:18.04"; "name" := VStr "cleanup" ]})
  = {[ "image" := VStr "ubuntu:18.04"; "force" := VBool false;
       "docker_server_url" := VStr default_url; "name" := VStr "cleanup" ]}.
Proof. reflexivity. Qed.

(** [False] given at call time is not [None]: it overrides a [True]
    attribute. *)
Example False_overrides_True :
  new_events (example_state stale)
    (@run example_docker RemoveImage {[ "force" := VBool false ]} (example_state stale)).2
  = [NewClient (VStr default_url);
     Invoke "remove" [("image", VStr "ubuntu:18.04"); ("force", VBool false)]].
Proof. reflexivity. Qed.

(** ** The constructors *)

Section Constructors.
Context `{Docker} `{Framework}.

Lemma extra_kwargs_lookup names : ∀ (args : dict) k,
  extra_kwargs names args !! k = if decide (k ∈ names) then None else args !! k.
Proof.
  unfold extra_kwargs.
  induction names as [|n names IH]; intros args k; cbn [foldr].
  - case_decide as Hk; [by apply elem_of_nil in Hk|done].
  - destruct (decide (n = k)) as [->|Hne].
    + rewrite lookup_delete_eq. case_decide as Hk; [done|].
      destruct Hk. apply list_elem_of_here.
    + rewrite lookup_delete_ne, IH by done.
      repeat case_decide; try done; exfalso.
      * eauto using list_elem_of_further.
      * match goal with
        | Hk : _ ∈ _ :: _ |- _ => apply elem_of_cons in Hk as [?|?]; by simplify_eq
        end.
Qed.

Lemma extra_kwargs_filter names (args : dict) :
  extra_kwargs names args = filter (λ kv, kv.1 ∉ names) args.
Proof.
  apply map_eq. intros k. rewrite extra_kwargs_lookup, map_lookup_filter.
  destruct (args !! k) as [v|]; simpl.
  - destruct (decide (k ∈ names)); by simplify_option_eq.
  - by destruct (decide (k ∈ names)).
Qed.

Lemma stored_lookup t args f :
  stored t args !! f
  = if decide (f ∈ fields t) then Some (param args f (constructor_default f)) else None.
Proof.
  destruct t; unfold stored; simpl; case_decide as Hf.
  all: try (apply list_elem_of_In in Hf; simpl in Hf;
            repeat (destruct Hf as [<-|Hf]; [by simplify_map_eq|]); done).
  all: repeat (apply not_elem_of_cons in Hf as [? Hf]); by simplify_map_eq.
Qed.

(** Every [__init__] in one shape: the fields are assigned, then
    [Task.__init__] gets the remaining keywords and decides the outcome. *)
Lemma instantiate_shape t args s :
  instantiate t args s
  = match Task__init__ (extra_kwargs (fields t) args) (stored t args) with
    | inl e => (inl e, State (stored t args) (world s) (trace s))
    | inr d => (inr (), State d (world s) (trace s))
    end.
Proof.
  destruct t;
    unfold instantiate, __init__, ListImages__init__, PullImage__init__,
      PushImage__init__, RemoveImage__init__, TagImage__init__,
      mbind, M_bind, setattr, super__init__, stored; simpl;
    by destruct (Task__init__ _ _).
Qed.

(** X1. A constructor that returns has stored, for each of its fields,
    the keyword it was given, [None] included, and the default of its
    signature only where the keyword is absent. *)
Theorem constructor_stores_fields t args s s1 f :
  preserves (fields t) →
  instantiate t args s = (inr (), s1) →
  f ∈ fields t →
  self s1 !! f
  = Some match args !! f with
         | Some v => v
         | None =>
             if String.eqb f "docker_server_url" then VStr "unix:///var/run/docker.sock"
             else if String.eqb f "all_layers" || String.eqb f "force" then VBool false
             else VNone
         end.
Proof.
  intros Hpres Hnew Hf. rewrite instantiate_shape in Hnew.
  destruct (Task__init__ _ _) as [e|d] eqn:Hsuper; simplify_eq/=.
  rewrite (Hpres _ _ _ f Hf Hsuper), stored_lookup, decide_True by done.
  unfold param. by destruct (args !! f).
Qed.

(** X2. No constructor touches the Docker library: whether it returns
    or raises, the world behind the client and the trace of interactions
    are what they were. *)
Theorem constructor_never_touches_docker t args s :
  world (instantiate t args s).2 = world s
  ∧ trace (instantiate t args s).2 = trace s.
Proof. rewrite instantiate_shape. by destruct (Task__init__ _ _). Qed.

(** X3. A constructor hands [Task.__init__] exactly the keywords that
    are not its own fields, on an instance that carries exactly those
    fields, and the outcome is the framework's: the constructor raises
    what [Task.__init__] raises and nothing else, and otherwise the
    instance is the one [Task.__init__] left. *)
Theorem constructor_defers_to_framework t args s :
  ∃ d : dict,
    dom d = list_to_set (fields t)
    ∧ (∀ f, f ∈ fields t → d !! f = Some (default (constructor_default f) (args !! f)))
    ∧ match Task__init__ (filter (λ kv, kv.1 ∉ fields t) args) d with
      | inl e => (instantiate t args s).1 = inl e
      | inr d' => (instantiate t args s).1 = inr () ∧ self (instantiate t args s).2 = d'
      end.
Proof.
  exists (stored t args). split; [|split].
  - apply set_eq. intros k. rewrite elem_of_dom, stored_lookup, elem_of_list_to_set.
    destruct (decide (k ∈ fields t)) as [Hk|Hk];
      (split; [intros [? ?]; by simplify_eq | intros ?; by eauto]).
  - intros f Hf. by rewrite stored_lookup, decide_True.
  - rewrite instantiate_shape, extra_kwargs_filter. by destruct (Task__init__ _ _).
Qed.
End Constructors.

(** ** Constructors and invocations together *)

Section Invocations.
Context `{Docker} `{Framework}.

(** [run] looks at the resolved values of its own fields only. *)
Lemma agree_on_fields t (eff eff' : string → value) :
  (∀ g, g ∈ fields t → eff g = eff' g) →
  passes_validation t eff = passes_validation t eff'
  ∧ call_kwargs t eff = call_kwargs t eff'
  ∧ eff "docker_server_url" = eff' "docker_server_url".
Proof.
  intros Hagree. destruct t; unfold call_kwargs; simpl;
    rewrite ?Hagree by (apply list_elem_of_In; simpl; tauto); done.
Qed.

Lemma constructed_resolved t args kwargs s s1 g :
  preserves (fields t) →
  instantiate t args s = (inr (), s1) →
  g ∈ fields t →
  resolved (self s1) kwargs g
  = if is_None (dict_get kwargs g) then default (constructor_default g) (args !! g)
    else dict_get kwargs g.
Proof.
  intros Hpres Hnew Hg.
  destruct (instantiate_attrs t args s s1 Hpres Hnew) as (_ & _ & Hattrs).
  unfold resolved. by rewrite (lookup_total_correct _ _ _ (Hattrs g Hg)).
Qed.

Lemma rejected_required t eff :
  passes_validation t eff = false → ∃ f, f ∈ required t ∧ truthy (eff f) = false.
Proof.
  destruct t; simpl; intros Hcheck; try done.
  - exists "repository". split; [apply list_elem_of_here|done].
  - exists "repository". split; [apply list_elem_of_here|done].
  - exists "image". split; [apply list_elem_of_here|done].
  - apply andb_false_iff in Hcheck as [Hf|Hf].
    + exists "image". split; [apply list_elem_of_here|done].
    + exists "repository". split; [|done].
      apply list_elem_of_further, list_elem_of_here.
Qed.

(** X4. What the constructor was given is what [run] hands to the Docker
    library: for an instance built from [args] and run with [kwargs], the
    value passed for a field is the call-time keyword when that is not
    [None], and otherwise the constructor's keyword, or the constructor's
    default where that keyword was absent. *)
Theorem constructed_then_run t args kwargs s s1 f :
  preserves (fields t) →
  instantiate t args s = (inr (), s1) →
  well_called t kwargs →
  f ∈ fields t →
  let given := λ g, default (constructor_default g) (args !! g) in
  let eff := λ g, if is_None (dict_get kwargs g) then given g else dict_get kwargs g in
  let sent := passed t f (new_events s1 (run t kwargs s1).2) in
  (∀ v, sent = Some v → v = eff f)
  ∧ (passes_validation t eff = true →
     ∀ c w, APIClient (eff "docker_server_url") (world s) = (inr c, w) →
     sent = Some (eff f)).
Proof.
  intros Hpres Hnew Hcall Hf given eff sent.
  pose proof (instantiate_has_attrs t args s s1 Hpres Hnew) as Hhas.
  destruct (instantiate_attrs t args s s1 Hpres Hnew) as (Hworld & _ & _).
  assert (∀ g, g ∈ fields t → resolved (self s1) kwargs g = eff g) as Hres.
  { intros g Hg. by apply (constructed_resolved t args kwargs s). }
  destruct (agree_on_fields t _ _ Hres) as (Hcheck & Hkw & Hurl).
  unfold sent. split.
  - intros v Hv. apply passed_resolved in Hv; [|done..]. by rewrite Hres in Hv.
  - intros Hpass c w Hclient. rewrite run_events by done.
    rewrite Hcheck, Hpass, Hurl, Hworld, Hclient, passed_delegated by done.
    f_equal. rewrite Hres by done.
    by destruct (String.eqb_spec f "docker_server_url") as [->|Hne].
Qed.

(** X5. The default URL stands in for an absent keyword only: an instance
    built with [docker_server_url=None] keeps [None], and a [run] that
    names no URL either builds its client with [base_url=None], not
    against the local socket. *)
Theorem explicit_None_url_not_defaulted t args kwargs s s1 :
  preserves (fields t) →
  args !! "docker_server_url" = Some VNone →
  is_None (dict_get kwargs "docker_server_url") = true →
  well_called t kwargs →
  instantiate t args s = (inr (), s1) →
  let evs := new_events s1 (run t kwargs s1).2 in
  (∀ u, NewClient u ∈ evs → u = VNone)
  ∧ (passes_validation t (resolved (self s1) kwargs) = true → NewClient VNone ∈ evs).
Proof.
  intros Hpres Hinit Hcallv Hcall Hnew evs.
  pose proof (instantiate_has_attrs t args s s1 Hpres Hnew) as Hhas.
  assert (resolved (self s1) kwargs "docker_server_url" = VNone) as Hurl.
  { rewrite (constructed_resolved t args kwargs s) by (done || apply url_is_field).
    by rewrite Hcallv, Hinit. }
  unfold evs. rewrite run_events by done. rewrite Hurl.
  destruct (passes_validation t _).
  - split.
    + intros u Hu. destruct (APIClient _ _) as [[e|c] w].
      * by apply list_elem_of_singleton in Hu as [= ->].
      * apply elem_of_cons in Hu as [[= ->]|Hu]; [done|].
        by apply list_elem_of_singleton in Hu.
    + intros _. destruct (APIClient _ _) as [[e|c] w]; apply list_elem_of_here.
  - split; [|done]. intros u Hu. by apply elem_of_nil in Hu.
Qed.

(** X6. [PullImage.run] and [PushImage.run] return the output of
    [client.pull] and [client.push] as it is: what the method returns is
    what [run] returns, and [run] returns nothing the method did not. *)
Theorem pull_push_result_verbatim t kwargs s :
  t = PullImage ∨ t = PushImage →
  well_called t kwargs →
  has_attrs t (self s) →
  let eff := resolved (self s) kwargs in
  let call := [("repository", eff "repository"); ("tag", eff "tag")] in
  truthy (eff "repository") = true →
  (∀ c w r w',
     APIClient (eff "docker_server_url") (world s) = (inr c, w) →
     client_call c (client_method t) call w = (inr r, w') →
     (run t kwargs s).1 = inr r)
  ∧ (∀ v, (run t kwargs s).1 = inr v →
       ∃ c w w',
         APIClient (eff "docker_server_url") (world s) = (inr c, w)
         ∧ client_call c (client_method t) call w = (inr v, w')).
Proof.
  intros Ht Hcall Hattrs eff call Hcheck. subst eff.
  assert (passes_validation t (resolved (self s) kwargs) = true
          ∧ call_kwargs t (resolved (self s) kwargs) = call
          ∧ ∀ r, returned t r = r) as (Hpass & Hkw & Hret).
  { by destruct Ht as [-> | ->]. }
  split.
  - intros c w r w' Hnew Hdone.
    rewrite (run_delegated t kwargs s c w (inr r) w'); [|done..|by rewrite Hkw].
    simpl. by rewrite Hret.
  - intros v Hrun.
    destruct (APIClient (resolved (self s) kwargs "docker_server_url") (world s))
      as [[e|c] w] eqn:Hnew.
    + by rewrite (run_unreachable t kwargs s e w) in Hrun.
    + destruct (client_call c (client_method t) call w) as [r w'] eqn:Hdone.
      rewrite (run_delegated t kwargs s c w r w') in Hrun; [|done..|by rewrite Hkw].
      destruct r as [e|r]; simplify_eq/=. rewrite Hret. by exists c, w, w'.
Qed.

(** X7. [run] refuses an invocation exactly when a required field
    resolves to a falsy value: then it raises the [ValueError] of its
    class and the state is untouched; in every other case its first act
    is to build a client against the resolved URL. *)
Theorem rejected_iff_falsy t kwargs s :
  well_called t kwargs →
  has_attrs t (self s) →
  let eff := resolved (self s) kwargs in
  let falsy := ∃ f, f ∈ required t ∧ truthy (eff f) = false in
  (falsy → run t kwargs s = (inl (validation_error t), s))
  ∧ (¬ falsy →
     ∃ rest, new_events s (run t kwargs s).2 = NewClient (eff "docker_server_url") :: rest).
Proof.
  intros Hcall Hattrs eff falsy. split.
  - intros (f & Hf & Hfalsy). apply run_rejected; [done..|].
    by apply (required_rejects t f).
  - intros Hnot. rewrite run_events by done. fold eff.
    destruct (passes_validation t eff) eqn:Hcheck.
    + destruct (APIClient _ _) as [[e|c] w]; by eexists.
    + destruct Hnot. by apply rejected_required.
Qed.

(** X8. A normal return of [run] is always the outcome of one delegated
    call: the client was built against the resolved URL, the method of
    the class was called on that client with the resolved values, it
    returned, and the world is the one the call left. *)
Theorem normal_return_delegated t kwargs s v s' :
  well_called t kwargs →
  has_attrs t (self s) →
  run t kwargs s = (inr v, s') →
  let eff := resolved (self s) kwargs in
  let url := eff "docker_server_url" in
  let call := (λ kf, (kf.1, eff kf.2)) <$> forwarded t in
  ∃ c w r,
    APIClient url (world s) = (inr c, w)
    ∧ client_call c (client_method t) call w = (inr r, world s')
    ∧ v = match t with RemoveImage => VNone | _ => r end
    ∧ trace s' = trace s ++ [NewClient url; Invoke (client_method t) call]
    ∧ self s' = self s.
Proof.
  intros Hcall Hattrs Hrun eff url call.
  destruct (passes_validation t eff) eqn:Hcheck.
  - destruct (APIClient url (world s)) as [[e|c] w] eqn:Hnew.
    + by rewrite (run_unreachable t kwargs s e w) in Hrun.
    + destruct (client_call c (client_method t) call w) as [r w'] eqn:Hdone.
      rewrite (run_delegated t kwargs s c w r w') in Hrun by done.
      destruct r as [e|r]; simplify_eq/=. by exists c, w, r.
  - by rewrite run_rejected in Hrun.
Qed.

(** X9. No client is kept from one invocation to the next: two
    invocations of an instance that both pass validation build two
    clients, each against the URL resolved for its own invocation, and
    the trace of both is the trace of the first followed by that of the
    second. *)
Theorem each_invocation_own_client t kwargs1 kwargs2 s :
  well_called t kwargs1 →
  well_called t kwargs2 →
  has_attrs t (self s) →
  passes_validation t (resolved (self s) kwargs1) = true →
  passes_validation t (resolved (self s) kwargs2) = true →
  let s1 := (run t kwargs1 s).2 in
  let s2 := (run t kwargs2 s1).2 in
  new_events s s2 = new_events s s1 ++ new_events s1 s2
  ∧ base_urls (new_events s s2)
    = [resolved (self s) kwargs1 "docker_server_url";
       resolved (self s) kwargs2 "docker_server_url"].
Proof.
  intros Hcall1 Hcall2 Hattrs Hpass1 Hpass2 s1 s2.
  destruct (run_frame t kwargs1 s) as (Hself & evs1 & Htrace1 & _). fold s1 in Hself, Htrace1.
  destruct (run_frame t kwargs2 s1) as (_ & evs2 & Htrace2 & _). fold s2 in Htrace2.
  assert (new_events s s1 = evs1) as Hev1.
  { unfold new_events. rewrite Htrace1. apply drop_app_length. }
  assert (new_events s1 s2 = evs2) as Hev2.
  { unfold new_events. rewrite Htrace2. apply drop_app_length. }
  assert (new_events s s2 = evs1 ++ evs2) as Hev.
  { unfold new_events. rewrite Htrace2, Htrace1, <- app_assoc. apply drop_app_length. }
  rewrite Hev, Hev1, Hev2. split; [done|].
  rewrite <- Hev1, <- Hev2. unfold s2, s1 at 1.
  rewrite !run_events by (done || by rewrite Hself).
  rewrite Hself, Hpass1, Hpass2.
  destruct (APIClient _ (world s)) as [[?|?] ?];
    by destruct (APIClient _ (world s1)) as [[?|?] ?].
Qed.

(** X10. [run] reads nothing of the instance but the fields of its
    class: on two instances that agree on those fields, whatever else
    they carry, the same invocation in the same world gives the same
    result, the same interactions and the same world afterwards. *)
Theorem run_reads_only_fields t kwargs s s' :
  well_called t kwargs →
  has_attrs t (self s) →
  (∀ f, f ∈ fields t → self s' !! f = self s !! f) →
  world s' = world s →
  (run t kwargs s').1 = (run t kwargs s).1
  ∧ world (run t kwargs s').2 = world (run t kwargs s).2
  ∧ new_events s' (run t kwargs s').2 = new_events s (run t kwargs s).2.
Proof.
  intros Hcall Hattrs Hsame Hworld.
  assert (has_attrs t (self s')) as Hattrs'.
  { apply Forall_forall. intros f Hf. rewrite (Hsame f Hf).
    by apply (proj1 (Forall_forall _ _) Hattrs). }
  assert (∀ g, g ∈ fields t → resolved (self s') kwargs g = resolved (self s) kwargs g)
    as Hres.
  { intros g Hg. unfold resolved. by rewrite !lookup_total_alt, (Hsame g Hg). }
  destruct (agree_on_fields t _ _ Hres) as (Hcheck & Hkw & Hurl).
  split; [|split]; [| |by rewrite !run_events, Hcheck, Hkw, Hurl, Hworld by done].
  all: destruct (passes_validation t (resolved (self s) kwargs)) eqn:Hpass;
    [|by rewrite !run_rejected by (done || by rewrite Hcheck)].
  all: destruct (APIClient (resolved (self s) kwargs "docker_server_url") (world s))
         as [[e|c] w] eqn:Hnew;
    [by rewrite (run_unreachable t kwargs s e w), (run_unreachable t kwargs s' e w)
       by (done || by rewrite ?Hcheck, ?Hurl, ?Hworld)|].
  all: destruct (client_call c (client_method t)
                   (call_kwargs t (resolved (self s) kwargs)) w) as [r w'] eqn:Hdone;
    by rewrite (run_delegated t kwargs s c w r w'), (run_delegated t kwargs s' c w r w')
      by (done || by rewrite ?Hcheck, ?Hkw, ?Hurl, ?Hworld).
Qed.
End Invocations.

(** ** Constructors and invocations in the example world *)

(** A [TagImage] built with [force=True] has stored it. *)
Lemma constructor_stores_fields_example :
  let args : dict :=
    {[ "image" := VStr "ubuntu:22.04"; "force" := VBool true; "name" := VStr "retag" ]} in
  let s1 := built TagImage args in
  @instantiate example_docker example_framework TagImage args blank = (inr (), s1)
  ∧ "force" ∈ fields TagImage
  ∧ self s1 !! "force" = Some (VBool true).
Proof.
  intros args s1.
  assert (@instantiate example_docker example_framework TagImage args blank = (inr (), s1))
    as Hnew by reflexivity.
  assert ("force" ∈ fields TagImage) as Hf by compute_done.
  split; [exact Hnew|]. split; [exact Hf|].
  exact (@constructor_stores_fields example_docker example_framework
           TagImage args blank s1 "force" (example_preserves TagImage) Hnew Hf).
Defined.

(** A [PushImage] built for a repository and run with another tag pushes
    to the repository it was built for. *)
Lemma constructed_then_run_example :
  let args : dict := {[ "repository" := VStr "registry.local/app"; "tag" := VStr "1.0" ]} in
  let kwargs : dict := {[ "tag" := VStr "1.1" ]} in
  let s1 := built PushImage args in
  @instantiate example_docker example_framework PushImage args blank = (inr (), s1)
  ∧ well_called PushImage kwargs
  ∧ "repository" ∈ fields PushImage
  ∧ passed PushImage "repository"
      (new_events s1 (@run example_docker PushImage kwargs s1).2)
    = Some (VStr "registry.local/app").
Proof.
  intros args kwargs s1.
  assert (@instantiate example_docker example_framework PushImage args blank = (inr (), s1))
    as Hnew by reflexivity.
  assert (well_called PushImage kwargs) as Hcall by compute_done.
  assert ("repository" ∈ fields PushImage) as Hf by compute_done.
  split; [exact Hnew|]. split; [exact Hcall|]. split; [exact Hf|].
  exact (proj2 (@constructed_then_run example_docker example_framework
                  PushImage args kwargs blank s1 "repository"
                  (example_preserves PushImage) Hnew Hcall Hf)
           eq_refl (VStr default_url) 0 eq_refl).
Defined.

(** A [RemoveImage] built with [docker_server_url=None] builds its
    client with [base_url=None]. *)
Lemma explicit_None_url_not_defaulted_example :
  let args : dict := {[ "image" := VStr "ubuntu:18.04"; "docker_server_url" := VNone ]} in
  let s1 := built RemoveImage args in
  args !! "docker_server_url" = Some VNone
  ∧ is_None (dict_get (∅ : dict) "docker_server_url") = true
  ∧ well_called RemoveImage ∅
  ∧ @instantiate example_docker example_framework RemoveImage args blank = (inr (), s1)
  ∧ NewClient VNone ∈ new_events s1 (@run example_docker RemoveImage ∅ s1).2.
Proof.
  intros args s1.
  assert (well_called RemoveImage ∅) as Hcall by compute_done.
  assert (@instantiate example_docker example_framework RemoveImage args blank = (inr (), s1))
    as Hnew by reflexivity.
  split; [reflexivity|]. split; [reflexivity|]. split; [exact Hcall|]. split; [exact Hnew|].
  exact (proj2 (@explicit_None_url_not_defaulted example_docker example_framework
                  RemoveImage args ∅ blank s1
                  (example_preserves RemoveImage) eq_refl eq_refl Hcall Hnew) eq_refl).
Defined.

(** A [PushImage] returns what the daemon said of the push. *)
Lemma pull_push_result_verbatim_example :
  let s := example_state ubuntu in
  well_called PushImage ∅ ∧ has_attrs PushImage (self s)
  ∧ truthy (resolved (self s) ∅ "repository") = true
  ∧ (@run example_docker PushImage ∅ s).1 = inr (VStr "The push refers to repository").
Proof.
  intros s.
  assert (well_called PushImage ∅) as Hcall by compute_done.
  assert (has_attrs PushImage (self s)) as Hattrs by compute_done.
  split; [exact Hcall|]. split; [exact Hattrs|]. split; [reflexivity|].
  exact (proj1 (@pull_push_result_verbatim example_docker PushImage ∅ s
                  (or_intror eq_refl) Hcall Hattrs eq_refl)
           (VStr default_url) 0 (VStr "The push refers to repository") 1 eq_refl eq_refl).
Defined.

(** A [TagImage] without a repository is refused with the state as it
    was. *)
Lemma rejected_iff_falsy_example :
  let s := example_state untagged in
  well_called TagImage ∅ ∧ has_attrs TagImage (self s)
  ∧ "repository" ∈ required TagImage
  ∧ truthy (resolved (self s) ∅ "repository") = false
  ∧ @run example_docker TagImage ∅ s
    = (inl (ValueError "Both image and repository must be provided."), s).
Proof.
  intros s.
  assert (well_called TagImage ∅) as Hcall by compute_done.
  assert (has_attrs TagImage (self s)) as Hattrs by compute_done.
  assert ("repository" ∈ required TagImage) as Hf by compute_done.
  split; [exact Hcall|]. split; [exact Hattrs|]. split; [exact Hf|]. split; [reflexivity|].
  exact (proj1 (@rejected_iff_falsy example_docker TagImage ∅ s Hcall Hattrs)
           (ex_intro _ "repository" (conj Hf eq_refl))).
Defined.

(** The pull of [ubuntu] returned, so the daemon served one request. *)
Lemma normal_return_delegated_example :
  let s := example_state ubuntu in
  let url := VStr default_url in
  let call := [("repository", VStr "ubuntu"); ("tag", VNone)] in
  let s' := @State example_docker ubuntu 1 [NewClient url; Invoke "pull" call] in
  well_called PullImage ∅ ∧ has_attrs PullImage (self s)
  ∧ @run example_docker PullImage ∅ s = (inr (VStr "Status: Image is up to date"), s')
  ∧ ∃ c w r,
      example_APIClient url 0 = (inr c, w)
      ∧ example_call c "pull" call w = (inr r, 1)
      ∧ VStr "Status: Image is up to date" = r.
Proof.
  intros s url call s'.
  assert (well_called PullImage ∅) as Hcall by compute_done.
  assert (has_attrs PullImage (self s)) as Hattrs by compute_done.
  assert (@run example_docker PullImage ∅ s = (inr (VStr "Status: Image is up to date"), s'))
    as Hrun by reflexivity.
  split; [exact Hcall|]. split; [exact Hattrs|]. split; [exact Hrun|].
  destruct (@normal_return_delegated example_docker PullImage ∅ s _ s' Hcall Hattrs Hrun)
    as (c & w & r & Hnew & Hdone & Hv & _).
  exists c, w, r. split; [exact Hnew|]. split; [exact Hdone|exact Hv].
Defined.

(** Two pulls from one instance, the second against another daemon,
    build a client each. *)
Lemma each_invocation_own_client_example :
  let kwargs1 : dict := {[ "tag" := VStr "22.04" ]} in
  let kwargs2 : dict := {[ "docker_server_url" := VStr "tcp://remote:2375" ]} in
  let s := example_state ubuntu in
  let s1 := (@run example_docker PullImage kwargs1 s).2 in
  let s2 := (@run example_docker PullImage kwargs2 s1).2 in
  well_called PullImage kwargs1 ∧ well_called PullImage kwargs2
  ∧ has_attrs PullImage (self s)
  ∧ base_urls (new_events s s2) = [VStr default_url; VStr "tcp://remote:2375"].
Proof.
  intros kwargs1 kwargs2 s s1 s2.
  assert (well_called PullImage kwargs1) as Hcall1 by compute_done.
  assert (well_called PullImage kwargs2) as Hcall2 by compute_done.
  assert (has_attrs PullImage (self s)) as Hattrs by compute_done.
  split; [exact Hcall1|]. split; [exact Hcall2|]. split; [exact Hattrs|].
  exact (proj2 (@each_invocation_own_client example_docker PullImage kwargs1 kwargs2 s
                  Hcall1 Hcall2 Hattrs eq_refl eq_refl)).
Defined.

(** The [name] the framework gave an instance changes nothing of its
    pull. *)
Lemma run_reads_only_fields_example :
  let s := example_state ubuntu in
  let s' := example_state (<["name" := VStr "pull-ubuntu"]> ubuntu) in
  well_called PullImage ∅ ∧ has_attrs PullImage (self s)
  ∧ (@run example_docker PullImage ∅ s').1 = (@run example_docker PullImage ∅ s).1.
Proof.
  intros s s'.
  assert (well_called PullImage ∅) as Hcall by compute_done.
  assert (has_attrs PullImage (self s)) as Hattrs by compute_done.
  assert (∀ f, f ∈ fields PullImage → self s' !! f = self s !! f) as Hsame.
  { intros f Hf. apply list_elem_of_In in Hf. simpl in Hf.
    repeat (destruct Hf as [<-|Hf]; [reflexivity|]). destruct Hf. }
  split; [exact Hcall|]. split; [exact Hattrs|].
  exact (proj1 (@run_reads_only_fields example_docker PullImage ∅ s s'
                  Hcall Hattrs Hsame eq_refl)).
Defined.
